(** * Expense-Tracker: the session guard and the Supabase auth providers

    A shallow embedding of
      - [src/middleware.ts]                       (the edge request guard),
      - [src/app/page.tsx]                        (the index page),
      - [SupabaseProvider.tsx] and
        [SupabaseAuthProvider.tsx]                (the two context providers,
                                                   given in the repository's
                                                   provider guide),
    and the properties the specification states about them.

    The backend service (Supabase auth and PostgREST), the browser console
    and the Next.js router are outside the repository.  The code talks to
    them through awaited calls and through synchronous effects; both are
    kept symbolic in a small program type [Prog] and are given a meaning by
    [run], which threads a backend of any state type through the program and
    records what the program did. *)

From Stdlib Require Import Bool String List.
Import ListNotations.
Open Scope string_scope.

(* ================================================================== *)
(** ** JavaScript values the code inspects *)

(** [throw new Error(message)], and whatever a rejected promise carries. *)
Inductive Error : Type :=
| new_Error (message : string).

(** A synchronous call or an awaited promise either hands back a value or
    throws. *)
Inductive Outcome (A : Type) : Type :=
| Returned (a : A)
| Thrown (e : Error).
Arguments Returned {A} a.
Arguments Thrown {A} e.

(** A value typed [any]. *)
Inductive Any : Type :=
| any_null
| any_opaque (tag : string).

(** [T | null] and [T | undefined] are both [option T]: the code only ever
    tests such values for truthiness, reads them through [?.], or compares
    them with [=== undefined]. *)
Definition truthy {T : Type} (v : option T) : bool :=
  match v with
  | Some _ => true
  | None => false
  end.

(** [a !== b] on values of type [string | undefined]. *)
Definition strict_neq (a b : option string) : bool :=
  match a, b with
  | Some x, Some y => negb (String.eqb x y)
  | None, None => false
  | _, _ => true
  end.

(* ================================================================== *)
(** ** Backend types (supabase-js), as far as the code reads them *)

Module User.
Record t : Type := mk { id : string; email : option string }.
End User.

Module Session.
Record t : Type := mk {
  access_token : string;
  refresh_token : string;
  user : User.t
}.
End Session.

Module AuthError.
Record t : Type := mk { message : string; status : option nat }.
End AuthError.

Module PostgrestError.
Record t : Type := mk {
  message : string;
  details : string;
  hint : string;
  code : string
}.
End PostgrestError.

(** A row of [public.profiles], with the columns of the guide's
    "User Management Starter" table. *)
Module Profile.
Record t : Type := mk {
  id : string;
  updated_at : option string;
  username : option string;
  full_name : option string;
  avatar_url : option string;
  website : option string
}.
End Profile.

(** What [supabase.auth.getSession()] resolves to:
    [{ data: { session }, error }]. *)
Module SessionResponse.
Record t : Type := mk {
  data_session : option Session.t;
  error : option AuthError.t
}.
End SessionResponse.

(** What [supabase.auth.signInWithPassword(...)] resolves to:
    [{ data: { user, session }, error }]. *)
Module AuthTokenResponse.
Record t : Type := mk {
  data_user : option User.t;
  data_session : option Session.t;
  error : option AuthError.t
}.
End AuthTokenResponse.

(** What [supabase.auth.signInWithOAuth(...)] resolves to. *)
Module OAuthResponse.
Record t : Type := mk {
  data_url : option string;
  error : option AuthError.t
}.
End OAuthResponse.

(** What [.single()] resolves to: [{ data, error }]. *)
Module PostgrestSingleResponse.
Record t : Type := mk {
  data : option Profile.t;
  error : option PostgrestError.t
}.
End PostgrestSingleResponse.

Inductive AuthChangeEvent : Type :=
| INITIAL_SESSION
| SIGNED_IN
| SIGNED_OUT
| TOKEN_REFRESHED
| USER_UPDATED
| PASSWORD_RECOVERY.

(* ================================================================== *)
(** ** Next.js types *)



(** What a [NextURL] holds besides the components of a URL: the base path
    and the locale prefix ("" when there is none, "/fr" and the like
    otherwise) its [pathname] leaves out and its serialisation puts back. *)
Module NextInfo.
Record t : Type := mk { basePath : string; locale : string }.
End NextInfo.

(** A URL object, by the components the WHATWG [URL] exposes.  A [NextURL]
    exposes the same components and carries a [NextInfo] in addition
    ([next] is [None] for a plain [URL]).  Assigning to [url.pathname]
    replaces that component and no other. *)
Module URL.
Record t : Type := mk {
  protocol : string;
  username : string;
  password : string;
  hostname : string;
  port : string;
  pathname : string;
  search : string;
  hash : string;
  next : option NextInfo.t
}.

(** [url.pathname = p] *)
Definition set_pathname (u : t) (p : string) : t :=
  {| protocol := protocol u;
     username := username u;
     password := password u;
     hostname := hostname u;
     port := port u;
     pathname := p;
     search := search u;
     hash := hash u;
     next := next u |}.

(** [url.clone()], and [new URL(href)] seen from the components of
    [href]: a fresh object with the same components. *)
Definition clone (u : t) : t := u.



(** A [NextURL] with the components of [u]. *)
Definition as_NextURL (i : NextInfo.t) (u : t) : t :=
  {| protocol := protocol u;
     username := username u;
     password := password u;
     hostname := hostname u;
     port := port u;
     pathname := pathname u;
     search := search u;
     hash := hash u;
     next := Some i |}.

(** Two URLs that agree on every component but, possibly, the pathname. *)
Definition same_but_pathname (u v : t) : Prop :=
  protocol u = protocol v /\
  username u = username v /\
  password u = password v /\
  hostname u = hostname v /\
  port u = port v /\
  search u = search v /\
  hash u = hash v.
End URL.

(** [NextRequest].  [req.url] is a string; the guard only ever hands it to
    [new URL], so it is held here as the components [new URL(req.url)]
    reads off it: a plain URL whose pathname is the full one.
    [req.nextUrl] is the request's [NextURL], whose pathname comes without
    base path and locale. *)
Module NextRequest.
Record t : Type := mk {
  url : URL.t;
  nextUrl : URL.t
}.
End NextRequest.

(** [NextResponse]: [NextResponse.next()] lets the request through,
    [NextResponse.redirect(url)] answers it with a redirect to [url]. *)
Module NextResponse.
Inductive t : Type :=
| next
| redirect (url : URL.t).
End NextResponse.

(* ================================================================== *)
(** ** Programs: awaited backend calls and local effects *)

(** The calls the repository makes on the backend handle, indexed by what
    they resolve to. *)
Inductive BackendCall : Type -> Type :=
| auth_getSession : BackendCall SessionResponse.t
| auth_signOut : BackendCall (option AuthError.t)
| auth_signInWithOAuth (provider redirectTo : string)
  : BackendCall OAuthResponse.t
| auth_signInWithPassword (email password : string)
  : BackendCall AuthTokenResponse.t
| from_select_eq_single (table columns column : string)
                        (value : option string)
  : BackendCall PostgrestSingleResponse.t.

(** What [console.log] is given. *)
Inductive LogArg : Type :=
| log_string (s : string)
| log_error (e : PostgrestError.t).

(** Synchronous effects on the console and on the router. *)
Inductive Effect : Type :=
| console_log (a : LogArg)
| router_refresh
| router_push (href : string).

Inductive Prog (A : Type) : Type :=
| Ret (a : A)
| Await {R : Type} (c : BackendCall R) (k : R -> Prog A)
| Do (e : Effect) (k : Prog A).
Arguments Ret {A} a.
Arguments Await {A R} c k.
Arguments Do {A} e k.

Declare Scope prog_scope.
Delimit Scope prog_scope with prog.
Notation "'let*' x ':=' 'await' c 'in' k" :=
  (Await c (fun x => k))
  (at level 10, x pattern, c at level 100, k at level 200) : prog_scope.
Notation "e ';;' k" :=
  (Do e k) (at level 100, k at level 200, right associativity) : prog_scope.
Open Scope prog_scope.

(** One entry of what a run did, in order. *)
Inductive Step : Type :=
| called {R : Type} (c : BackendCall R)
| did (e : Effect).

(** A promise settles: fulfilled with a value or rejected with a reason. *)
Inductive Settled (R : Type) : Type :=
| Fulfilled (r : R)
| Rejected (reason : Error).
Arguments Fulfilled {R} r.
Arguments Rejected {R} reason.

(** A backend: from its current state, how each call settles and the state
    it leaves. *)
Definition Backend (St : Type) : Type :=
  forall R : Type, BackendCall R -> St -> Settled R * St.

Record Run (St A : Type) : Type := mkRun {
  outcome : Outcome A;
  final : St;
  trace : list Step
}.
Arguments mkRun {St A} outcome final trace.
Arguments outcome {St A} r.
Arguments final {St A} r.
Arguments trace {St A} r.

(** [await] on a rejected promise throws; nothing in the repository catches,
    so the rejection ends the program. *)
Fixpoint run {St A : Type} (backend : Backend St) (p : Prog A) (st : St)
  : Run St A :=
  match p with
  | Ret a => mkRun (Returned a) st []
  | Await c k =>
      match backend _ c st with
      | (Fulfilled r, st') =>
          let rest := run backend (k r) st' in
          mkRun (outcome rest) (final rest) (called c :: trace rest)
      | (Rejected reason, st') => mkRun (Thrown reason) st' [called c]
      end
  | Do e k =>
      let rest := run backend k st in
      mkRun (outcome rest) (final rest) (did e :: trace rest)
  end.

(* ================================================================== *)
(** ** [src/middleware.ts] *)

Definition middleware (req : NextRequest.t) : Prog NextResponse.t :=
  let res := NextResponse.next in
  let pathname := URL.pathname (NextRequest.nextUrl req) in
  let* r := await auth_getSession in
  let session := SessionResponse.data_session r in
  if negb (truthy session) && String.eqb pathname "/" then
    let url := URL.clone (NextRequest.url req) in
    let url := URL.set_pathname url "/login" in
    Ret (NextResponse.redirect url)
  else if truthy session && String.eqb pathname "/login" then
    console_log (log_string "You are already logged In!");;
    let url := URL.clone (NextRequest.nextUrl req) in
    let url := URL.set_pathname url "/" in
    Ret (NextResponse.redirect url)
  else
    Ret res.

(* ================================================================== *)
(** ** React contexts *)

Module React.
(** [createContext(defaultValue)] *)
Record Context (T : Type) : Type := createContext { defaultValue : T }.
Arguments createContext {T} defaultValue.
Arguments defaultValue {T} c.

(** [useContext(ctx)] in a component whose enclosing [ctx.Provider]
    elements pass [providers], nearest first: the nearest provider's
    value, or the default when there is none. *)
Definition useContext {T : Type} (ctx : Context T) (providers : list T)
  : T :=
  match providers with
  | value :: _ => value
  | [] => defaultValue ctx
  end.
End React.

(* ================================================================== *)
(** ** [SupabaseProvider.tsx] *)

(** The typed handle the factories build. *)
Inductive SupabaseClient : Type :=
| createClientComponentClient
| createServerComponentClient
| createMiddlewareClient.

(** [supabase-client]'s [createClient]. *)
Definition createClient : SupabaseClient := createClientComponentClient.

Module SupabaseContext.
Record t : Type := mk { supabase : SupabaseClient }.
End SupabaseContext.

Module SupabaseProvider.
(** [createContext<SupabaseContext | undefined>(undefined)] *)
Definition Context : React.Context (option SupabaseContext.t) :=
  React.createContext None.

(** The value [SupabaseProvider] passes down: [{ supabase }]. *)
Definition value : option SupabaseContext.t :=
  Some (SupabaseContext.mk createClient).

Definition useSupabase (providers : list (option SupabaseContext.t))
  : Outcome SupabaseContext.t :=
  let context := React.useContext Context providers in
  match context with
  | None =>
      Thrown (new_Error "useSupabase must be used inside SupabaseProvider")
  | Some context => Returned context
  end.
End SupabaseProvider.

(* ================================================================== *)
(** ** [SupabaseAuthProvider.tsx] *)

(** [interface ContextI].  [user] is [Profile | null | undefined]:
    [None] is [undefined], [Some None] is [null]. *)
Module ContextI.
Record t : Type := mk {
  user : option (option Profile.t);
  error : Any;
  isLoading : bool;
  mutate : Any;
  signOut : Prog unit;
  signInWithGithub : Prog unit;
  signInWithEmail : string -> string -> Prog (option string)
}.
End ContextI.

(** What [useSWR(key, fetcher)] hands back. *)
Module SWRResponse.
Record t : Type := mk {
  data : option (option Profile.t);
  error : Any;
  isLoading : bool;
  mutate : Any
}.
End SWRResponse.

Module SupabaseAuthProvider.
(** The default value given to [createContext<ContextI>]. *)
Definition defaultContext : ContextI.t :=
  {| ContextI.user := Some None;
     ContextI.error := any_null;
     ContextI.isLoading := true;
     ContextI.mutate := any_null;
     ContextI.signOut := Ret tt;
     ContextI.signInWithGithub := Ret tt;
     ContextI.signInWithEmail := fun email password => Ret None |}.

(** The context object at run time.  A [ContextI] is a defined value, so
    the slot [useAuth] compares with [undefined] holds [Some]. *)
Definition Context : React.Context (option ContextI.t) :=
  React.createContext (Some defaultContext).

(** [serverSession?.user?.id] *)
Definition serverSession_user_id (serverSession : option Session.t)
  : option string :=
  match serverSession with
  | Some s => Some (User.id (Session.user s))
  | None => None
  end.

(** [serverSession?.access_token], [session?.access_token] *)
Definition access_token_of (session : option Session.t) : option string :=
  match session with
  | Some s => Some (Session.access_token s)
  | None => None
  end.

(** The query [getUser] awaits:
    [supabase.from("profiles").select("*").eq("id", id).single()]. *)
Definition profile_query (serverSession : option Session.t)
  : BackendCall PostgrestSingleResponse.t :=
  from_select_eq_single "profiles" "*" "id"
                        (serverSession_user_id serverSession).

Definition getUser (serverSession : option Session.t)
  : Prog (option Profile.t) :=
  let* r := await profile_query serverSession in
  let user := PostgrestSingleResponse.data r in
  let error := PostgrestSingleResponse.error r in
  match error with
  | Some error => console_log (log_error error);; Ret None
  | None => Ret user
  end.

(** The key given to [useSWR]: [serverSession ? "profile-context" : null].
    With a [null] key the fetcher is not called. *)
Definition swr_key (serverSession : option Session.t) : option string :=
  if truthy serverSession then Some "profile-context" else None.

Definition signOut : Prog unit :=
  let* _ := await auth_signOut in
  router_push "/login";;
  Ret tt.

Definition signInWithGithub : Prog unit :=
  let* _ := await auth_signInWithOAuth
              "github" "http://localhost:3000/api/callback" in
  Ret tt.

Definition signInWithEmail (email password : string)
  : Prog (option string) :=
  let* r := await auth_signInWithPassword email password in
  let error := AuthTokenResponse.error r in
  match error with
  | Some error => Ret (Some (AuthError.message error))
  | None => Ret None
  end.

(** The callback the provider's effect hands to
    [supabase.auth.onAuthStateChange]. *)
Definition onAuthStateChange_callback
           (serverSession : option Session.t)
           (event : AuthChangeEvent) (session : option Session.t)
  : Prog unit :=
  if strict_neq (access_token_of session) (access_token_of serverSession)
  then router_refresh;; Ret tt
  else Ret tt.

(** The value the provider passes down ([exposed]). *)
Definition exposed (swr : SWRResponse.t) : ContextI.t :=
  {| ContextI.user := SWRResponse.data swr;
     ContextI.error := SWRResponse.error swr;
     ContextI.isLoading := SWRResponse.isLoading swr;
     ContextI.mutate := SWRResponse.mutate swr;
     ContextI.signOut := signOut;
     ContextI.signInWithGithub := signInWithGithub;
     ContextI.signInWithEmail := signInWithEmail |}.

(** [providers] are the [exposed] values of the enclosing
    [SupabaseAuthProvider] elements, nearest first; each is a [ContextI],
    hence a defined value in the context's slot. *)
Definition useAuth (providers : list ContextI.t) : Outcome ContextI.t :=
  let context := React.useContext Context (map Some providers) in
  match context with
  | None =>
      Thrown (new_Error "useAuth must be used inside SupabaseAuthProvider")
  | Some context => Returned context
  end.
End SupabaseAuthProvider.

(* ================================================================== *)
(** ** What a run did *)

Definition is_signInWithPassword (s : Step) : bool :=
  match s with
  | called (auth_signInWithPassword _ _) => true
  | _ => false
  end.

Definition is_call (s : Step) : bool :=
  match s with
  | called _ => true
  | did _ => false
  end.

Definition is_router_refresh (s : Step) : bool :=
  match s with
  | did router_refresh => true
  | _ => false
  end.

Definition count (f : Step -> bool) (tr : list Step) : nat :=
  length (filter f tr).

(* ================================================================== *)
(** ** A small backend to run the programs against

    A stand-in for the external service, used only to run the programs on
    concrete requests; the properties below are stated for every backend. *)

Module Demo.
Record State : Type := mkState {
  online : bool;
  lookup_error : option AuthError.t;
  current : option Session.t;
  accounts : list (string * string * Session.t);
  profiles : list Profile.t
}.

Fixpoint find_account (email password : string)
         (l : list (string * string * Session.t)) : option Session.t :=
  match l with
  | [] => None
  | (e, p, s) :: l' =>
      if String.eqb e email && String.eqb p password then Some s
      else find_account email password l'
  end.

Definition invalid_credentials : AuthError.t :=
  AuthError.mk "Invalid login credentials" (Some 400).

Definition not_one_row : PostgrestError.t :=
  PostgrestError.mk
    "JSON object requested, multiple (or no) rows returned"
    "The result contains 0 or many rows" "" "PGRST116".

Definition rows_with_id (value : option string) (l : list Profile.t)
  : list Profile.t :=
  match value with
  | Some v => filter (fun p => String.eqb (Profile.id p) v) l
  | None => []
  end.

Definition with_current (st : State) (s : option Session.t) : State :=
  mkState (online st) (lookup_error st) s (accounts st) (profiles st).

Definition backend : Backend State :=
  fun R c =>
    match c in BackendCall R return State -> Settled R * State with
    | auth_getSession => fun st =>
        if online st then
          match lookup_error st with
          | Some e => (Fulfilled (SessionResponse.mk None (Some e)), st)
          | None => (Fulfilled (SessionResponse.mk (current st) None), st)
          end
        else (Rejected (new_Error "fetch failed"), st)
    | auth_signOut => fun st => (Fulfilled None, with_current st None)
    | auth_signInWithOAuth provider redirectTo => fun st =>
        (Fulfilled (OAuthResponse.mk (Some redirectTo) None), st)
    | auth_signInWithPassword email password => fun st =>
        match find_account email password (accounts st) with
        | Some s =>
            (Fulfilled
               (AuthTokenResponse.mk (Some (Session.user s)) (Some s) None),
             with_current st (Some s))
        | None =>
            (Fulfilled
               (AuthTokenResponse.mk None None (Some invalid_credentials)),
             st)
        end
    | from_select_eq_single table columns column value => fun st =>
        match rows_with_id value (profiles st) with
        | [row] =>
            (Fulfilled (PostgrestSingleResponse.mk (Some row) None), st)
        | _ =>
            (Fulfilled (PostgrestSingleResponse.mk None (Some not_one_row)),
             st)
        end
    end.

Definition ada : User.t := User.mk "u-1" (Some "ada@example.com").
Definition ada_session : Session.t := Session.mk "at-1" "rt-1" ada.
Definition ada_refreshed : Session.t := Session.mk "at-2" "rt-2" ada.
Definition ada_profile : Profile.t :=
  Profile.mk "u-1" None (Some "ada") (Some "Ada L.") None None.

Definition signed_out : State :=
  mkState true None None
          [("ada@example.com", "s3cret", ada_session)] [ada_profile].
Definition signed_in : State := with_current signed_out (Some ada_session).
Definition offline : State :=
  mkState false None None
          [("ada@example.com", "s3cret", ada_session)] [ada_profile].
Definition failing_lookup : State :=
  mkState true (Some (AuthError.mk "Auth session missing!" (Some 400)))
          None [("ada@example.com", "s3cret", ada_session)] [ada_profile].
Definition no_profiles : State :=
  mkState true None (Some ada_session)
          [("ada@example.com", "s3cret", ada_session)] [].

Definition at_path (p search : string) : URL.t :=
  URL.mk "https:" "" "" "tracker.example" "" p search "" None.

Definition request (p search : string) : NextRequest.t :=
  NextRequest.mk (at_path p search)
                 (URL.as_NextURL (NextInfo.mk "" "") (at_path p search)).

End Demo.

(* ================================================================== *)
(** ** [src/app/page.tsx] *)

(** [supabase-server]'s [createClient]. *)
Module SupabaseServer.
Definition createClient : SupabaseClient := createServerComponentClient.
End SupabaseServer.

Module Page.
(** What the page puts in its navigation bar: the greeting
    "Hey, {user.email}!" with the logout button, or the link to the login
    page. *)
Inductive Nav : Type :=
| greeting (email : option string)
| login_link (href : string).

Definition Index : Prog Nav :=
  let supabase := SupabaseServer.createClient in
  let* r := await auth_getSession in
  let session := SessionResponse.data_session r in
  let user := option_map Session.user session in
  match user with
  | Some user => Ret (greeting (User.email user))
  | None => Ret (login_link "/login")
  end.
End Page.

Definition is_navigation (s : Step) : bool :=
  match s with
  | did router_refresh => true
  | did (router_push _) => true
  | _ => false
  end.

Definition is_console_log (s : Step) : bool :=
  match s with
  | did (console_log _) => true
  | _ => false
  end.

(** A backend that is either answering every call with an error object or
    not reachable at all; a second stand-in for concrete runs. *)
Module Flaky.
Inductive Mode : Type :=
| denying
| down.

Definition denied : AuthError.t :=
  AuthError.mk "Service unavailable" (Some 503).

Definition failed_query : PostgrestError.t :=
  PostgrestError.mk "permission denied for table profiles" "" "" "42501".

Definition deny (R : Type) (c : BackendCall R) : Settled R :=
  match c in BackendCall R return Settled R with
  | auth_getSession => Fulfilled (SessionResponse.mk None (Some denied))
  | auth_signOut => Fulfilled (Some denied)
  | auth_signInWithOAuth _ _ =>
      Fulfilled (OAuthResponse.mk None (Some denied))
  | auth_signInWithPassword _ _ =>
      Fulfilled (AuthTokenResponse.mk None None (Some denied))
  | from_select_eq_single _ _ _ _ =>
      Fulfilled (PostgrestSingleResponse.mk None (Some failed_query))
  end.

Definition backend : Backend Mode :=
  fun R c st =>
    match st with
    | denying => (deny R c, denying)
    | down => (Rejected (new_Error "fetch failed"), down)
    end.
End Flaky.

(* ================================================================== *)
(** * Properties *)

(** ** Running programs *)

Section RunLemmas.
Context {St A : Type} (backend : Backend St).

Lemma run_await_fulfilled {R : Type} (c : BackendCall R) (k : R -> Prog A)
      (st st' : St) (r : R) :
  backend _ c st = (Fulfilled r, st') ->
  run backend (Await c k) st =
  mkRun (outcome (run backend (k r) st'))
        (final (run backend (k r) st'))
        (called c :: trace (run backend (k r) st')).
Proof. intros H. simpl. rewrite H. reflexivity. Qed.

Lemma run_await_rejected {R : Type} (c : BackendCall R) (k : R -> Prog A)
      (st st' : St) (reason : Error) :
  backend _ c st = (Rejected reason, st') ->
  run backend (Await c k) st = mkRun (Thrown reason) st' [called c].
Proof. intros H. simpl. rewrite H. reflexivity. Qed.
End RunLemmas.

Lemma strict_neq_true_iff (a b : option string) :
  strict_neq a b = true <-> a <> b.
Proof.
  destruct a as [x|], b as [y|]; simpl; split; try congruence.
  - intros H E. inversion E; subst. rewrite String.eqb_refl in H. discriminate.
  - intros H. destruct (String.eqb x y) eqn:E; [|reflexivity].
    apply String.eqb_eq in E. congruence.
Qed.


Lemma same_but_pathname_set (u : URL.t) (p : string) :
  URL.same_but_pathname (URL.set_pathname u p) u.
Proof. repeat split. Qed.

(* ------------------------------------------------------------------ *)
(** ** The session guard *)

Section Guard.
Context {St : Type} (backend : Backend St).

(** What the guard does once the session lookup has resolved. *)
Lemma middleware_resolved (req : NextRequest.t) (st st' : St)
      (r : SessionResponse.t) :
  backend _ auth_getSession st = (Fulfilled r, st') ->
  run backend (middleware req) st =
  let pathname := URL.pathname (NextRequest.nextUrl req) in
  match SessionResponse.data_session r with
  | None =>
      if String.eqb pathname "/" then
        mkRun (Returned (NextResponse.redirect
                           (URL.set_pathname (NextRequest.url req) "/login")))
              st' [called auth_getSession]
      else mkRun (Returned NextResponse.next) st' [called auth_getSession]
  | Some _ =>
      if String.eqb pathname "/login" then
        mkRun (Returned (NextResponse.redirect
                           (URL.set_pathname (NextRequest.nextUrl req) "/")))
              st'
              [called auth_getSession;
               did (console_log (log_string "You are already logged In!"))]
      else mkRun (Returned NextResponse.next) st' [called auth_getSession]
  end.
Proof.
  intros H. unfold middleware.
  rewrite (run_await_fulfilled backend _ _ st st' r H).
  destruct (SessionResponse.data_session r) as [s|]; simpl;
    destruct (String.eqb _ _); reflexivity.
Qed.

(** What the guard does when the session lookup rejects. *)
Lemma middleware_rejected (req : NextRequest.t) (st st' : St)
      (reason : Error) :
  backend _ auth_getSession st = (Rejected reason, st') ->
  run backend (middleware req) st =
  mkRun (Thrown reason) st' [called auth_getSession].
Proof. intros H. unfold middleware. now apply run_await_rejected. Qed.
End Guard.

(** C1. A request to the root path whose session lookup yields no session
    is answered with a redirect whose target path is "/login". *)
Theorem middleware_root_without_session_redirects_to_login
        {St : Type} (backend : Backend St) (st st' : St)
        (req : NextRequest.t) (r : SessionResponse.t) :
  URL.pathname (NextRequest.nextUrl req) = "/" ->
  backend _ auth_getSession st = (Fulfilled r, st') ->
  SessionResponse.data_session r = None ->
  exists target : URL.t,
    outcome (run backend (middleware req) st)
    = Returned (NextResponse.redirect target) /\
    URL.pathname target = "/login".
Proof.
  intros Hpath Hcall Hnone.
  rewrite (middleware_resolved backend req st st' r Hcall).
  cbv zeta. rewrite Hnone, Hpath. simpl.
  eexists. split; reflexivity.
Qed.

Lemma middleware_root_without_session_witness :
  exists target : URL.t,
    outcome (run Demo.backend (middleware (Demo.request "/" "?tab=2"))
                 Demo.signed_out)
    = Returned (NextResponse.redirect target) /\
    URL.pathname target = "/login".
Proof.
  apply (middleware_root_without_session_redirects_to_login
           Demo.backend Demo.signed_out Demo.signed_out
           (Demo.request "/" "?tab=2") (SessionResponse.mk None None));
    reflexivity.
Defined.

(** C2. A request to "/login" whose session lookup yields a session is
    answered with a redirect whose target path is "/". *)
Theorem middleware_login_with_session_redirects_to_root
        {St : Type} (backend : Backend St) (st st' : St)
        (req : NextRequest.t) (r : SessionResponse.t) (s : Session.t) :
  URL.pathname (NextRequest.nextUrl req) = "/login" ->
  backend _ auth_getSession st = (Fulfilled r, st') ->
  SessionResponse.data_session r = Some s ->
  exists target : URL.t,
    outcome (run backend (middleware req) st)
    = Returned (NextResponse.redirect target) /\
    URL.pathname target = "/".
Proof.
  intros Hpath Hcall Hsome.
  rewrite (middleware_resolved backend req st st' r Hcall).
  cbv zeta. rewrite Hsome, Hpath. simpl.
  eexists. split; reflexivity.
Qed.

Lemma middleware_login_with_session_witness :
  exists target : URL.t,
    outcome (run Demo.backend (middleware (Demo.request "/login" ""))
                 Demo.signed_in)
    = Returned (NextResponse.redirect target) /\
    URL.pathname target = "/".
Proof.
  apply (middleware_login_with_session_redirects_to_root
           Demo.backend Demo.signed_in Demo.signed_in
           (Demo.request "/login" "")
           (SessionResponse.mk (Some Demo.ada_session) None)
           Demo.ada_session);
    reflexivity.
Defined.

(** C3. For every path and resolved session lookup other than (root path,
    no session) and ("/login", session present), the guard returns the
    pass-through response: it produces no redirect, and it does nothing
    besides the session lookup. *)
Theorem middleware_passes_through_otherwise
        {St : Type} (backend : Backend St) (st st' : St)
        (req : NextRequest.t) (r : SessionResponse.t) :
  backend _ auth_getSession st = (Fulfilled r, st') ->
  ~ (URL.pathname (NextRequest.nextUrl req) = "/" /\
     SessionResponse.data_session r = None) ->
  ~ (URL.pathname (NextRequest.nextUrl req) = "/login" /\
     SessionResponse.data_session r <> None) ->
  run backend (middleware req) st
  = mkRun (Returned NextResponse.next) st' [called auth_getSession].
Proof.
  intros Hcall Hroot Hlogin.
  rewrite (middleware_resolved backend req st st' r Hcall). cbv zeta.
  destruct (SessionResponse.data_session r) as [s|].
  - destruct (String.eqb _ "/login") eqn:E; [|reflexivity].
    apply String.eqb_eq in E. exfalso. apply Hlogin. split; congruence.
  - destruct (String.eqb _ "/") eqn:E; [|reflexivity].
    apply String.eqb_eq in E. exfalso. apply Hroot. split; congruence.
Qed.

Lemma middleware_passes_through_witness :
  run Demo.backend (middleware (Demo.request "/login" "")) Demo.signed_out
  = mkRun (Returned NextResponse.next) Demo.signed_out
          [called auth_getSession]
  /\
  run Demo.backend (middleware (Demo.request "/" "")) Demo.signed_in
  = mkRun (Returned NextResponse.next) Demo.signed_in
          [called auth_getSession]
  /\
  run Demo.backend (middleware (Demo.request "/expenses" "")) Demo.signed_in
  = mkRun (Returned NextResponse.next) Demo.signed_in
          [called auth_getSession].
Proof.
  split; [|split].
  - apply (middleware_passes_through_otherwise
             Demo.backend Demo.signed_out Demo.signed_out
             (Demo.request "/login" "") (SessionResponse.mk None None)).
    + reflexivity.
    + simpl. intros [H _]. discriminate H.
    + simpl. intros [_ H]. apply H. reflexivity.
  - apply (middleware_passes_through_otherwise
             Demo.backend Demo.signed_in Demo.signed_in
             (Demo.request "/" "")
             (SessionResponse.mk (Some Demo.ada_session) None)).
    + reflexivity.
    + simpl. intros [_ H]. discriminate H.
    + simpl. intros [H _]. discriminate H.
  - apply (middleware_passes_through_otherwise
             Demo.backend Demo.signed_in Demo.signed_in
             (Demo.request "/expenses" "")
             (SessionResponse.mk (Some Demo.ada_session) None)).
    + reflexivity.
    + simpl. intros [H _]. discriminate H.
    + simpl. intros [H _]. discriminate H.
Defined.

(** C4, as the code has it.  A session lookup that resolves to an error
    object (whose [data.session] is [null]) is handled exactly like a lookup
    that resolves to no session, on this or any other backend: same
    response, same actions, on the root path the redirect to "/login" and on
    any other path the pass-through.  A session lookup that throws is not
    handled: the guard returns no response and the rejection reaches the
    guard's caller. *)
Theorem middleware_failed_lookup
        {St : Type} (backend : Backend St) (req : NextRequest.t) :
  (forall (s_err s_err' : St) (e : AuthError.t),
      backend _ auth_getSession s_err
      = (Fulfilled (SessionResponse.mk None (Some e)), s_err') ->
      (forall (St2 : Type) (backend2 : Backend St2) (s_none s_none' : St2),
          backend2 _ auth_getSession s_none
          = (Fulfilled (SessionResponse.mk None None), s_none') ->
          outcome (run backend (middleware req) s_err)
          = outcome (run backend2 (middleware req) s_none) /\
          trace (run backend (middleware req) s_err)
          = trace (run backend2 (middleware req) s_none)) /\
      (URL.pathname (NextRequest.nextUrl req) = "/" ->
       outcome (run backend (middleware req) s_err)
       = Returned (NextResponse.redirect
                     (URL.set_pathname (NextRequest.url req) "/login"))) /\
      (URL.pathname (NextRequest.nextUrl req) <> "/" ->
       outcome (run backend (middleware req) s_err)
       = Returned NextResponse.next)) /\
  (forall (s_rej s_rej' : St) (reason : Error),
      backend _ auth_getSession s_rej = (Rejected reason, s_rej') ->
      outcome (run backend (middleware req) s_rej) = Thrown reason /\
      trace (run backend (middleware req) s_rej) = [called auth_getSession]).
Proof.
  split.
  - intros s_err s_err' e Herr. split; [|split].
    + intros St2 backend2 s_none s_none' Hnone.
      rewrite (middleware_resolved backend req _ _ _ Herr).
      rewrite (middleware_resolved backend2 req _ _ _ Hnone).
      cbv zeta. simpl. destruct (String.eqb _ "/"); split; reflexivity.
    + intros Hpath. rewrite (middleware_resolved backend req _ _ _ Herr).
      cbv zeta. simpl. rewrite Hpath. reflexivity.
    + intros Hpath. rewrite (middleware_resolved backend req _ _ _ Herr).
      cbv zeta. simpl. destruct (String.eqb _ "/") eqn:E; [|reflexivity].
      apply String.eqb_eq in E. contradiction.
  - intros s_rej s_rej' reason Hrej.
    rewrite (middleware_rejected backend req _ _ _ Hrej).
    split; reflexivity.
Qed.

Lemma middleware_failed_lookup_witness :
  (outcome (run Demo.backend (middleware (Demo.request "/" ""))
                Demo.failing_lookup)
   = outcome (run Demo.backend (middleware (Demo.request "/" ""))
                  Demo.signed_out) /\
   trace (run Demo.backend (middleware (Demo.request "/" ""))
              Demo.failing_lookup)
   = trace (run Demo.backend (middleware (Demo.request "/" ""))
                Demo.signed_out)) /\
  outcome (run Demo.backend (middleware (Demo.request "/" ""))
               Demo.failing_lookup)
  = Returned (NextResponse.redirect (Demo.at_path "/login" "")) /\
  (outcome (run Demo.backend (middleware (Demo.request "/" "")) Demo.offline)
   = Thrown (new_Error "fetch failed") /\
   trace (run Demo.backend (middleware (Demo.request "/" "")) Demo.offline)
   = [called auth_getSession]).
Proof.
  split; [|split].
  - apply (proj1 (proj1 (middleware_failed_lookup
                           Demo.backend (Demo.request "/" ""))
                        Demo.failing_lookup Demo.failing_lookup
                        (AuthError.mk "Auth session missing!" (Some 400))
                        eq_refl)
                 Demo.State Demo.backend Demo.signed_out Demo.signed_out
                 eq_refl).
  - apply (proj1 (proj2 (proj1 (middleware_failed_lookup
                                  Demo.backend (Demo.request "/" ""))
                               Demo.failing_lookup Demo.failing_lookup
                               (AuthError.mk "Auth session missing!"
                                             (Some 400))
                               eq_refl))
                 eq_refl).
  - apply (proj2 (middleware_failed_lookup
                    Demo.backend (Demo.request "/" ""))
                 Demo.offline Demo.offline (new_Error "fetch failed")
                 eq_refl).
Defined.

(** C4, as stated, fails when the lookup throws: on a root-path request the
    guard then produces no redirect, unlike for a lookup that returns no
    session. *)
Lemma middleware_throwing_lookup_is_not_no_session :
  Demo.backend _ auth_getSession Demo.offline
  = (Rejected (new_Error "fetch failed"), Demo.offline) /\
  Demo.backend _ auth_getSession Demo.signed_out
  = (Fulfilled (SessionResponse.mk None None), Demo.signed_out) /\
  outcome (run Demo.backend (middleware (Demo.request "/" "")) Demo.offline)
  = Thrown (new_Error "fetch failed") /\
  outcome (run Demo.backend (middleware (Demo.request "/" ""))
               Demo.signed_out)
  = Returned (NextResponse.redirect (Demo.at_path "/login" "")) /\
  outcome (run Demo.backend (middleware (Demo.request "/" "")) Demo.offline)
  <> outcome (run Demo.backend (middleware (Demo.request "/" ""))
                  Demo.signed_out).
Proof.
  repeat split; try reflexivity.
  vm_compute. discriminate.
Qed.




(* ------------------------------------------------------------------ *)
(** ** The profile fetch *)

Section ProfileFetch.
Import SupabaseAuthProvider.
Context {St : Type} (backend : Backend St).

Lemma getUser_resolved (serverSession : option Session.t) (st st' : St)
      (r : PostgrestSingleResponse.t) :
  backend _ (profile_query serverSession) st = (Fulfilled r, st') ->
  run backend (getUser serverSession) st =
  match PostgrestSingleResponse.error r with
  | Some e =>
      mkRun (Returned None) st'
            [called (profile_query serverSession);
             did (console_log (log_error e))]
  | None =>
      mkRun (Returned (PostgrestSingleResponse.data r)) st'
            [called (profile_query serverSession)]
  end.
Proof.
  intros H. unfold getUser.
  rewrite (run_await_fulfilled backend _ _ st st' r H).
  destruct (PostgrestSingleResponse.error r); reflexivity.
Qed.

(** The fetch leaves the backend in the state its one query leaves it. *)
Lemma getUser_final (serverSession : option Session.t) (st : St) :
  final (run backend (getUser serverSession) st)
  = snd (backend _ (profile_query serverSession) st).
Proof.
  unfold getUser. simpl.
  destruct (backend _ (profile_query serverSession) st) as [[r|x] st'];
    simpl; [|reflexivity].
  destruct (PostgrestSingleResponse.error r); reflexivity.
Qed.

(** The fetch reads the session only through the user id. *)
Lemma getUser_depends_on_user_id (s1 s2 : option Session.t) :
  serverSession_user_id s1 = serverSession_user_id s2 ->
  getUser s1 = getUser s2.
Proof. intros H. unfold getUser, profile_query. rewrite H. reflexivity. Qed.
End ProfileFetch.

(** C5. When the single-row lookup on [profiles] comes back with an error,
    [getUser] logs that error and resolves to null; when it comes back
    without one, [getUser] resolves to the fetched row. *)
Theorem getUser_null_on_error_row_otherwise
        {St : Type} (backend : Backend St) (st st' : St)
        (serverSession : option Session.t)
        (r : PostgrestSingleResponse.t) :
  backend _ (SupabaseAuthProvider.profile_query serverSession) st
  = (Fulfilled r, st') ->
  (forall e : PostgrestError.t,
      PostgrestSingleResponse.error r = Some e ->
      outcome (run backend (SupabaseAuthProvider.getUser serverSession) st)
      = Returned None /\
      trace (run backend (SupabaseAuthProvider.getUser serverSession) st)
      = [called (SupabaseAuthProvider.profile_query serverSession);
         did (console_log (log_error e))]) /\
  (PostgrestSingleResponse.error r = None ->
   outcome (run backend (SupabaseAuthProvider.getUser serverSession) st)
   = Returned (PostgrestSingleResponse.data r) /\
   trace (run backend (SupabaseAuthProvider.getUser serverSession) st)
   = [called (SupabaseAuthProvider.profile_query serverSession)]).
Proof.
  intros H. rewrite (getUser_resolved backend serverSession st st' r H).
  split.
  - intros e He. rewrite He. split; reflexivity.
  - intros He. rewrite He. split; reflexivity.
Qed.

Lemma getUser_null_on_error_row_otherwise_witness :
  (outcome (run Demo.backend
                (SupabaseAuthProvider.getUser (Some Demo.ada_session))
                Demo.no_profiles)
   = Returned None /\
   trace (run Demo.backend
              (SupabaseAuthProvider.getUser (Some Demo.ada_session))
              Demo.no_profiles)
   = [called (SupabaseAuthProvider.profile_query (Some Demo.ada_session));
      did (console_log (log_error Demo.not_one_row))]) /\
  (outcome (run Demo.backend
                (SupabaseAuthProvider.getUser (Some Demo.ada_session))
                Demo.signed_in)
   = Returned (Some Demo.ada_profile) /\
   trace (run Demo.backend
              (SupabaseAuthProvider.getUser (Some Demo.ada_session))
              Demo.signed_in)
   = [called (SupabaseAuthProvider.profile_query (Some Demo.ada_session))]).
Proof.
  split.
  - apply (getUser_null_on_error_row_otherwise
             Demo.backend Demo.no_profiles Demo.no_profiles
             (Some Demo.ada_session)
             (PostgrestSingleResponse.mk None (Some Demo.not_one_row))
             eq_refl).
    reflexivity.
  - apply (getUser_null_on_error_row_otherwise
             Demo.backend Demo.signed_in Demo.signed_in
             (Some Demo.ada_session)
             (PostgrestSingleResponse.mk (Some Demo.ada_profile) None)
             eq_refl).
    reflexivity.
Defined.

(** C8. The profile fetch is idempotent: when a fetch leaves the backend
    state as it found it, a second fetch under a session with the same user
    id resolves to what the first resolved to. *)
Theorem getUser_idempotent
        {St : Type} (backend : Backend St) (st : St)
        (s1 s2 : option Session.t) :
  SupabaseAuthProvider.serverSession_user_id s1
  = SupabaseAuthProvider.serverSession_user_id s2 ->
  snd (backend _ (SupabaseAuthProvider.profile_query s1) st) = st ->
  outcome (run backend (SupabaseAuthProvider.getUser s2)
               (final (run backend (SupabaseAuthProvider.getUser s1) st)))
  = outcome (run backend (SupabaseAuthProvider.getUser s1) st).
Proof.
  intros Hid Hst.
  rewrite (getUser_final backend s1 st), Hst.
  rewrite (getUser_depends_on_user_id s1 s2 Hid). reflexivity.
Qed.

Lemma getUser_idempotent_witness :
  outcome (run Demo.backend
               (SupabaseAuthProvider.getUser (Some Demo.ada_refreshed))
               (final (run Demo.backend
                           (SupabaseAuthProvider.getUser
                              (Some Demo.ada_session))
                           Demo.signed_in)))
  = outcome (run Demo.backend
                 (SupabaseAuthProvider.getUser (Some Demo.ada_session))
                 Demo.signed_in).
Proof.
  apply (getUser_idempotent Demo.backend Demo.signed_in
                            (Some Demo.ada_session)
                            (Some Demo.ada_refreshed));
    reflexivity.
Defined.

(* ------------------------------------------------------------------ *)
(** ** Sign-in with email *)

(** Whatever the backend answers, and also when the call rejects,
    [signInWithEmail] calls [signInWithPassword] once. *)
Lemma signInWithEmail_calls_once
      {St : Type} (backend : Backend St) (st : St)
      (email password : string) :
  count is_signInWithPassword
        (trace (run backend
                    (SupabaseAuthProvider.signInWithEmail email password) st))
  = 1.
Proof.
  unfold SupabaseAuthProvider.signInWithEmail. simpl.
  destruct (backend _ (auth_signInWithPassword email password) st)
    as [[r|x] st']; simpl; [|reflexivity].
  destruct (AuthTokenResponse.error r); reflexivity.
Qed.

(** C6. [signInWithEmail] returns the backend's error message when
    [signInWithPassword] comes back with an error and null when it comes
    back without one; either way the backend was called exactly once, with
    the given email and password. *)
Theorem signInWithEmail_message_or_null
        {St : Type} (backend : Backend St) (st st' : St)
        (email password : string) (r : AuthTokenResponse.t) :
  backend _ (auth_signInWithPassword email password) st
  = (Fulfilled r, st') ->
  (forall e : AuthError.t,
      AuthTokenResponse.error r = Some e ->
      outcome (run backend
                   (SupabaseAuthProvider.signInWithEmail email password) st)
      = Returned (Some (AuthError.message e))) /\
  (AuthTokenResponse.error r = None ->
   outcome (run backend
                (SupabaseAuthProvider.signInWithEmail email password) st)
   = Returned None) /\
  trace (run backend (SupabaseAuthProvider.signInWithEmail email password) st)
  = [called (auth_signInWithPassword email password)] /\
  count is_call
        (trace (run backend
                    (SupabaseAuthProvider.signInWithEmail email password) st))
  = 1.
Proof.
  intros H. unfold SupabaseAuthProvider.signInWithEmail.
  rewrite (run_await_fulfilled backend _ _ st st' r H).
  destruct (AuthTokenResponse.error r) as [e0|]; simpl.
  - repeat split; try reflexivity.
    + intros e He. inversion He. reflexivity.
    + intros He. discriminate He.
  - repeat split; try reflexivity.
    intros e He. discriminate He.
Qed.

Lemma signInWithEmail_message_or_null_witness :
  outcome (run Demo.backend
               (SupabaseAuthProvider.signInWithEmail
                  "ada@example.com" "wrong")
               Demo.signed_out)
  = Returned (Some "Invalid login credentials") /\
  outcome (run Demo.backend
               (SupabaseAuthProvider.signInWithEmail
                  "ada@example.com" "s3cret")
               Demo.signed_out)
  = Returned None.
Proof.
  split.
  - exact (proj1 (signInWithEmail_message_or_null
                    Demo.backend Demo.signed_out Demo.signed_out
                    "ada@example.com" "wrong"
                    (AuthTokenResponse.mk None None
                                          (Some Demo.invalid_credentials))
                    eq_refl)
                 Demo.invalid_credentials eq_refl).
  - exact (proj1 (proj2 (signInWithEmail_message_or_null
                           Demo.backend Demo.signed_out Demo.signed_in
                           "ada@example.com" "s3cret"
                           (AuthTokenResponse.mk (Some Demo.ada)
                                                 (Some Demo.ada_session) None)
                           eq_refl))
                 eq_refl).
Defined.

(* ------------------------------------------------------------------ *)
(** ** Auth-state-change notifications *)

(** C7, as stated, fails: a notification whose session carries the access
    token of the server session (here the initial notification for the
    session the page was rendered with) triggers no refresh. *)
Lemma onAuthStateChange_same_token_no_refresh :
  trace (run Demo.backend
             (SupabaseAuthProvider.onAuthStateChange_callback
                (Some Demo.ada_session) INITIAL_SESSION
                (Some Demo.ada_session))
             Demo.signed_in)
  = [] /\
  ~ In (did router_refresh)
       (trace (run Demo.backend
                   (SupabaseAuthProvider.onAuthStateChange_callback
                      (Some Demo.ada_session) INITIAL_SESSION
                      (Some Demo.ada_session))
                   Demo.signed_in)).
Proof. split; [reflexivity | intros H; exact H]. Qed.

(** C7, as the code has it.  Every auth-state-change notification whose
    session's access token differs from the server session's triggers one
    page refresh ([router.refresh]), whatever the event; a notification
    whose session carries the server session's access token does nothing. *)
Theorem onAuthStateChange_refreshes_when_token_differs
        {St : Type} (backend : Backend St) (st : St)
        (serverSession : option Session.t) (event : AuthChangeEvent)
        (session : option Session.t) :
  (SupabaseAuthProvider.access_token_of session
   <> SupabaseAuthProvider.access_token_of serverSession ->
   run backend
       (SupabaseAuthProvider.onAuthStateChange_callback
          serverSession event session) st
   = mkRun (Returned tt) st [did router_refresh]) /\
  (SupabaseAuthProvider.access_token_of session
   = SupabaseAuthProvider.access_token_of serverSession ->
   run backend
       (SupabaseAuthProvider.onAuthStateChange_callback
          serverSession event session) st
   = mkRun (Returned tt) st []).
Proof.
  unfold SupabaseAuthProvider.onAuthStateChange_callback.
  destruct (strict_neq _ _) eqn:E.
  - split; [reflexivity|].
    intros H. apply strict_neq_true_iff in E. contradiction.
  - split; [|reflexivity].
    intros H. apply strict_neq_true_iff in H. congruence.
Qed.

Lemma onAuthStateChange_refreshes_when_token_differs_witness :
  run Demo.backend
      (SupabaseAuthProvider.onAuthStateChange_callback
         (Some Demo.ada_session) SIGNED_OUT None) Demo.signed_out
  = mkRun (Returned tt) Demo.signed_out [did router_refresh]
  /\
  run Demo.backend
      (SupabaseAuthProvider.onAuthStateChange_callback
         (Some Demo.ada_session) TOKEN_REFRESHED (Some Demo.ada_refreshed))
      Demo.signed_in
  = mkRun (Returned tt) Demo.signed_in [did router_refresh].
Proof.
  split.
  - apply (proj1 (onAuthStateChange_refreshes_when_token_differs
                    Demo.backend Demo.signed_out
                    (Some Demo.ada_session) SIGNED_OUT None)).
    simpl. intros H. discriminate H.
  - apply (proj1 (onAuthStateChange_refreshes_when_token_differs
                    Demo.backend Demo.signed_in
                    (Some Demo.ada_session) TOKEN_REFRESHED
                    (Some Demo.ada_refreshed))).
    simpl. intros H. discriminate H.
Defined.

(* ------------------------------------------------------------------ *)
(** ** The context hooks *)

Lemma useAuth_returns_nearest_or_default (providers : list ContextI.t) :
  SupabaseAuthProvider.useAuth providers
  = Returned (React.useContext
                (React.createContext SupabaseAuthProvider.defaultContext)
                providers).
Proof. destruct providers; reflexivity. Qed.

(** C10. [useAuth] never throws: wherever it is called it returns a
    context, and outside any [SupabaseAuthProvider] that context is the
    default one (user null, loading, sign-in and sign-out that do nothing);
    [useSupabase] outside a [SupabaseProvider] throws. *)
Theorem useAuth_never_throws :
  (forall (providers : list ContextI.t) (e : Error),
      SupabaseAuthProvider.useAuth providers <> Thrown e) /\
  (forall providers : list ContextI.t,
      exists context : ContextI.t,
        SupabaseAuthProvider.useAuth providers = Returned context) /\
  SupabaseAuthProvider.useAuth []
  = Returned SupabaseAuthProvider.defaultContext /\
  React.defaultValue SupabaseAuthProvider.Context <> None /\
  ContextI.user SupabaseAuthProvider.defaultContext = Some None /\
  ContextI.isLoading SupabaseAuthProvider.defaultContext = true /\
  ContextI.signOut SupabaseAuthProvider.defaultContext = Ret tt /\
  ContextI.signInWithGithub SupabaseAuthProvider.defaultContext = Ret tt /\
  (forall email password : string,
      ContextI.signInWithEmail SupabaseAuthProvider.defaultContext
                               email password
      = Ret None) /\
  SupabaseProvider.useSupabase []
  = Thrown (new_Error "useSupabase must be used inside SupabaseProvider").
Proof.
  split; [|split].
  - intros providers e. rewrite useAuth_returns_nearest_or_default.
    discriminate.
  - intros providers. rewrite useAuth_returns_nearest_or_default.
    eexists. reflexivity.
  - repeat split; try reflexivity. discriminate.
Qed.

(* ------------------------------------------------------------------ *)
(** ** More on the session guard *)

(** The guard leaves the backend in the state its one lookup leaves it. *)
Lemma middleware_final {St : Type} (backend : Backend St)
      (req : NextRequest.t) (st : St) :
  final (run backend (middleware req) st)
  = snd (backend _ auth_getSession st).
Proof.
  destruct (backend _ auth_getSession st) as [[r|reason] st'] eqn:Hcall.
  - rewrite (middleware_resolved backend req st st' r Hcall). cbv zeta.
    destruct (SessionResponse.data_session r); destruct (String.eqb _ _);
      reflexivity.
  - rewrite (middleware_rejected backend req st st' reason Hcall).
    reflexivity.
Qed.

(** X1. The guard never redirects twice in a row: when it answers a request
    with a redirect and the session is still present, or still absent, at
    the next lookup, the request for the redirect's path passes through. *)
Theorem middleware_no_redirect_loop
        {St : Type} (backend : Backend St) (st st1 st2 : St)
        (req req' : NextRequest.t) (r1 r2 : SessionResponse.t)
        (target : URL.t) :
  backend _ auth_getSession st = (Fulfilled r1, st1) ->
  backend _ auth_getSession st1 = (Fulfilled r2, st2) ->
  truthy (SessionResponse.data_session r1)
  = truthy (SessionResponse.data_session r2) ->
  outcome (run backend (middleware req) st)
  = Returned (NextResponse.redirect target) ->
  URL.pathname (NextRequest.nextUrl req') = URL.pathname target ->
  outcome (run backend (middleware req')
               (final (run backend (middleware req) st)))
  = Returned NextResponse.next.
Proof.
  intros H1 H2 Hsame Hout Hpath.
  rewrite middleware_final, H1. simpl snd.
  rewrite (middleware_resolved backend req st st1 r1 H1) in Hout.
  rewrite (middleware_resolved backend req' st1 st2 r2 H2).
  cbv zeta in *. rewrite Hpath.
  destruct (SessionResponse.data_session r1) as [s1|],
           (SessionResponse.data_session r2) as [s2|];
    simpl in Hsame; try discriminate Hsame;
    destruct (String.eqb (URL.pathname (NextRequest.nextUrl req)) _);
    simpl in Hout; try discriminate Hout;
    inversion Hout; subst target; reflexivity.
Qed.

Lemma middleware_no_redirect_loop_witness :
  outcome (run Demo.backend (middleware (Demo.request "/login" "?tab=2"))
               (final (run Demo.backend
                           (middleware (Demo.request "/" "?tab=2"))
                           Demo.signed_out)))
  = Returned NextResponse.next.
Proof.
  apply (middleware_no_redirect_loop
           Demo.backend Demo.signed_out Demo.signed_out Demo.signed_out
           (Demo.request "/" "?tab=2") (Demo.request "/login" "?tab=2")
           (SessionResponse.mk None None) (SessionResponse.mk None None)
           (Demo.at_path "/login" "?tab=2"));
    reflexivity.
Defined.

(** X2. The guard reads the lookup's answer only for whether a session is
    there: two answers that both carry a session, or both carry none, get
    the same response and the same actions, whatever the sessions hold and
    whatever the answers' [error] fields are. *)
Theorem middleware_reads_session_presence_only
        {St : Type} (backend : Backend St) (st1 st1' st2 st2' : St)
        (req : NextRequest.t) (r1 r2 : SessionResponse.t) :
  backend _ auth_getSession st1 = (Fulfilled r1, st1') ->
  backend _ auth_getSession st2 = (Fulfilled r2, st2') ->
  truthy (SessionResponse.data_session r1)
  = truthy (SessionResponse.data_session r2) ->
  outcome (run backend (middleware req) st1)
  = outcome (run backend (middleware req) st2) /\
  trace (run backend (middleware req) st1)
  = trace (run backend (middleware req) st2).
Proof.
  intros H1 H2 Hsame.
  rewrite (middleware_resolved backend req st1 st1' r1 H1).
  rewrite (middleware_resolved backend req st2 st2' r2 H2).
  cbv zeta.
  destruct (SessionResponse.data_session r1) as [s1|],
           (SessionResponse.data_session r2) as [s2|];
    simpl in Hsame; try discriminate Hsame;
    destruct (String.eqb _ _); split; reflexivity.
Qed.

Lemma middleware_reads_session_presence_only_witness :
  outcome (run Demo.backend (middleware (Demo.request "/" ""))
               Demo.signed_out)
  = outcome (run Demo.backend (middleware (Demo.request "/" ""))
                 Demo.failing_lookup) /\
  trace (run Demo.backend (middleware (Demo.request "/" ""))
             Demo.signed_out)
  = trace (run Demo.backend (middleware (Demo.request "/" ""))
               Demo.failing_lookup).
Proof.
  apply (middleware_reads_session_presence_only
           Demo.backend Demo.signed_out Demo.signed_out
           Demo.failing_lookup Demo.failing_lookup
           (Demo.request "/" "")
           (SessionResponse.mk None None)
           (SessionResponse.mk
              None (Some (AuthError.mk "Auth session missing!" (Some 400)))));
    reflexivity.
Defined.

(** X3. Whatever the backend does, a run of the guard starts with the
    session lookup and calls the backend exactly once; it never touches the
    router; and it writes to the console only when it redirects to "/". *)
Theorem middleware_one_lookup_no_navigation
        {St : Type} (backend : Backend St) (st : St) (req : NextRequest.t) :
  hd_error (trace (run backend (middleware req) st))
  = Some (called auth_getSession) /\
  count is_call (trace (run backend (middleware req) st)) = 1 /\
  count is_navigation (trace (run backend (middleware req) st)) = 0 /\
  (count is_console_log (trace (run backend (middleware req) st)) <> 0 ->
   outcome (run backend (middleware req) st)
   = Returned (NextResponse.redirect
                 (URL.set_pathname (NextRequest.nextUrl req) "/"))).
Proof.
  destruct (backend _ auth_getSession st) as [[r|reason] st'] eqn:Hcall.
  - rewrite (middleware_resolved backend req st st' r Hcall). cbv zeta.
    destruct (SessionResponse.data_session r); destruct (String.eqb _ _);
      repeat split; try reflexivity;
      intros H; exfalso; apply H; reflexivity.
  - rewrite (middleware_rejected backend req st st' reason Hcall).
    repeat split. intros H. exfalso. apply H. reflexivity.
Qed.

(* ------------------------------------------------------------------ *)
(** ** The index page *)

Lemma Index_resolved {St : Type} (backend : Backend St) (st st' : St)
      (r : SessionResponse.t) :
  backend _ auth_getSession st = (Fulfilled r, st') ->
  run backend Page.Index st =
  mkRun (Returned
           match SessionResponse.data_session r with
           | Some s => Page.greeting (User.email (Session.user s))
           | None => Page.login_link "/login"
           end)
        st' [called auth_getSession].
Proof.
  intros H. unfold Page.Index.
  rewrite (run_await_fulfilled backend _ _ st st' r H).
  destruct (SessionResponse.data_session r); reflexivity.
Qed.

(** X4. Behind the guard the index page greets: when the guard lets a
    request for the root path through and a session is still there at the
    page's own lookup, the page shows the greeting with that session's
    user's email, never the login link. *)
Theorem Index_behind_guard_greets
        {St : Type} (backend : Backend St) (st st1 st2 : St)
        (req : NextRequest.t) (r1 r2 : SessionResponse.t) :
  URL.pathname (NextRequest.nextUrl req) = "/" ->
  backend _ auth_getSession st = (Fulfilled r1, st1) ->
  backend _ auth_getSession st1 = (Fulfilled r2, st2) ->
  truthy (SessionResponse.data_session r1)
  = truthy (SessionResponse.data_session r2) ->
  outcome (run backend (middleware req) st) = Returned NextResponse.next ->
  exists s : Session.t,
    SessionResponse.data_session r2 = Some s /\
    outcome (run backend Page.Index
                 (final (run backend (middleware req) st)))
    = Returned (Page.greeting (User.email (Session.user s))).
Proof.
  intros Hpath H1 H2 Hsame Hout.
  rewrite middleware_final, H1. simpl snd.
  rewrite (middleware_resolved backend req st st1 r1 H1) in Hout.
  rewrite (Index_resolved backend st1 st2 r2 H2).
  cbv zeta in Hout. rewrite Hpath in Hout.
  destruct (SessionResponse.data_session r1) as [s1|],
           (SessionResponse.data_session r2) as [s2|];
    simpl in Hsame, Hout; try discriminate.
  exists s2. split; reflexivity.
Qed.

Lemma Index_behind_guard_greets_witness :
  exists s : Session.t,
    SessionResponse.data_session
      (SessionResponse.mk (Some Demo.ada_session) None) = Some s /\
    outcome (run Demo.backend Page.Index
                 (final (run Demo.backend (middleware (Demo.request "/" ""))
                             Demo.signed_in)))
    = Returned (Page.greeting (User.email (Session.user s))).
Proof.
  apply (Index_behind_guard_greets
           Demo.backend Demo.signed_in Demo.signed_in Demo.signed_in
           (Demo.request "/" "")
           (SessionResponse.mk (Some Demo.ada_session) None)
           (SessionResponse.mk (Some Demo.ada_session) None));
    reflexivity.
Defined.

(** X5. The login link the index page offers is not bounced by the guard:
    when the page shows the link and there is still no session at the
    guard's lookup, the request for the link's path passes through. *)
Theorem Index_login_link_passes_guard
        {St : Type} (backend : Backend St) (st st1 st2 : St)
        (req : NextRequest.t) (r1 r2 : SessionResponse.t) (href : string) :
  backend _ auth_getSession st = (Fulfilled r1, st1) ->
  backend _ auth_getSession st1 = (Fulfilled r2, st2) ->
  truthy (SessionResponse.data_session r1)
  = truthy (SessionResponse.data_session r2) ->
  outcome (run backend Page.Index st) = Returned (Page.login_link href) ->
  URL.pathname (NextRequest.nextUrl req) = href ->
  outcome (run backend (middleware req) (final (run backend Page.Index st)))
  = Returned NextResponse.next.
Proof.
  intros H1 H2 Hsame Hout Hpath.
  rewrite (Index_resolved backend st st1 r1 H1) in Hout |- *.
  simpl final. simpl in Hout.
  rewrite (middleware_resolved backend req st1 st2 r2 H2). cbv zeta.
  destruct (SessionResponse.data_session r1) as [s1|],
           (SessionResponse.data_session r2) as [s2|];
    simpl in Hsame; try discriminate.
  injection Hout as Hhref. rewrite Hpath, <- Hhref. reflexivity.
Qed.

Lemma Index_login_link_passes_guard_witness :
  outcome (run Demo.backend (middleware (Demo.request "/login" ""))
               (final (run Demo.backend Page.Index Demo.signed_out)))
  = Returned NextResponse.next.
Proof.
  apply (Index_login_link_passes_guard
           Demo.backend Demo.signed_out Demo.signed_out Demo.signed_out
           (Demo.request "/login" "")
           (SessionResponse.mk None None) (SessionResponse.mk None None)
           "/login");
    reflexivity.
Defined.

(* ------------------------------------------------------------------ *)
(** ** Sign-out and sign-in with GitHub *)

(** X6. [signOut] goes to "/login" whenever the backend call resolves, also
    when it resolves to an error: the answer is not looked at.  If the
    session is in fact gone afterwards, the guard lets that navigation
    through; if it is still there, the guard sends it back to "/". *)
Theorem signOut_navigates_whatever_the_answer
        {St : Type} (backend : Backend St) (st st1 st2 : St)
        (answer : option AuthError.t) (r : SessionResponse.t)
        (req : NextRequest.t) :
  backend _ auth_signOut st = (Fulfilled answer, st1) ->
  backend _ auth_getSession st1 = (Fulfilled r, st2) ->
  URL.pathname (NextRequest.nextUrl req) = "/login" ->
  run backend SupabaseAuthProvider.signOut st
  = mkRun (Returned tt) st1 [called auth_signOut; did (router_push "/login")]
  /\
  outcome (run backend (middleware req)
               (final (run backend SupabaseAuthProvider.signOut st)))
  = match SessionResponse.data_session r with
    | None => Returned NextResponse.next
    | Some _ =>
        Returned (NextResponse.redirect
                    (URL.set_pathname (NextRequest.nextUrl req) "/"))
    end.
Proof.
  intros Hout Hget Hpath.
  assert (Hrun : run backend SupabaseAuthProvider.signOut st
                 = mkRun (Returned tt) st1
                         [called auth_signOut; did (router_push "/login")]).
  { unfold SupabaseAuthProvider.signOut.
    rewrite (run_await_fulfilled backend _ _ st st1 answer Hout).
    reflexivity. }
  split; [exact Hrun|].
  rewrite Hrun. simpl final.
  rewrite (middleware_resolved backend req st1 st2 r Hget). cbv zeta.
  rewrite Hpath.
  destruct (SessionResponse.data_session r); reflexivity.
Qed.

Lemma signOut_navigates_whatever_the_answer_witness :
  run Flaky.backend SupabaseAuthProvider.signOut Flaky.denying
  = mkRun (Returned tt) Flaky.denying
          [called auth_signOut; did (router_push "/login")]
  /\
  outcome (run Flaky.backend (middleware (Demo.request "/login" ""))
               (final (run Flaky.backend SupabaseAuthProvider.signOut
                           Flaky.denying)))
  = Returned NextResponse.next.
Proof.
  apply (signOut_navigates_whatever_the_answer
           Flaky.backend Flaky.denying Flaky.denying Flaky.denying
           (Some Flaky.denied)
           (SessionResponse.mk None (Some Flaky.denied))
           (Demo.request "/login" ""));
    reflexivity.
Defined.

(** X7. [signInWithGithub] asks for the GitHub OAuth flow with the fixed
    callback address exactly once and resolves to nothing, whether the
    backend answers with an error or not: the error is neither returned nor
    logged, and no navigation is made. *)
Theorem signInWithGithub_discards_the_answer
        {St : Type} (backend : Backend St) (st st' : St)
        (r : OAuthResponse.t) :
  backend _ (auth_signInWithOAuth
               "github" "http://localhost:3000/api/callback") st
  = (Fulfilled r, st') ->
  run backend SupabaseAuthProvider.signInWithGithub st
  = mkRun (Returned tt) st'
          [called (auth_signInWithOAuth
                     "github" "http://localhost:3000/api/callback")].
Proof.
  intros H. unfold SupabaseAuthProvider.signInWithGithub.
  rewrite (run_await_fulfilled backend _ _ st st' r H). reflexivity.
Qed.

Lemma signInWithGithub_discards_the_answer_witness :
  run Flaky.backend SupabaseAuthProvider.signInWithGithub Flaky.denying
  = mkRun (Returned tt) Flaky.denying
          [called (auth_signInWithOAuth
                     "github" "http://localhost:3000/api/callback")].
Proof.
  apply (signInWithGithub_discards_the_answer
           Flaky.backend Flaky.denying Flaky.denying
           (OAuthResponse.mk None (Some Flaky.denied)));
    reflexivity.
Defined.

(* ------------------------------------------------------------------ *)
(** ** Rejected calls *)

(** X8. Nothing in the providers or the index page catches a rejected call:
    while the backend cannot be reached, the profile fetch, the three
    sign-in and sign-out operations and the page each end with the
    rejection after their one call, and nothing is logged, returned as a
    message, or navigated to. *)
Theorem rejections_are_not_caught
        {St : Type} (backend : Backend St) (st st' : St) (reason : Error)
        (serverSession : option Session.t) (email password : string) :
  (forall (R : Type) (c : BackendCall R),
      backend R c st = (Rejected reason, st')) ->
  run backend (SupabaseAuthProvider.getUser serverSession) st
  = mkRun (Thrown reason) st'
          [called (SupabaseAuthProvider.profile_query serverSession)] /\
  run backend (SupabaseAuthProvider.signInWithEmail email password) st
  = mkRun (Thrown reason) st'
          [called (auth_signInWithPassword email password)] /\
  run backend SupabaseAuthProvider.signInWithGithub st
  = mkRun (Thrown reason) st'
          [called (auth_signInWithOAuth
                     "github" "http://localhost:3000/api/callback")] /\
  run backend SupabaseAuthProvider.signOut st
  = mkRun (Thrown reason) st' [called auth_signOut] /\
  run backend Page.Index st
  = mkRun (Thrown reason) st' [called auth_getSession].
Proof.
  intros Hdown.
  repeat split;
    (apply run_await_rejected; apply Hdown).
Qed.

Lemma rejections_are_not_caught_witness :
  run Flaky.backend (SupabaseAuthProvider.getUser (Some Demo.ada_session))
      Flaky.down
  = mkRun (Thrown (new_Error "fetch failed")) Flaky.down
          [called (SupabaseAuthProvider.profile_query
                     (Some Demo.ada_session))] /\
  run Flaky.backend
      (SupabaseAuthProvider.signInWithEmail "ada@example.com" "s3cret")
      Flaky.down
  = mkRun (Thrown (new_Error "fetch failed")) Flaky.down
          [called (auth_signInWithPassword "ada@example.com" "s3cret")] /\
  run Flaky.backend SupabaseAuthProvider.signInWithGithub Flaky.down
  = mkRun (Thrown (new_Error "fetch failed")) Flaky.down
          [called (auth_signInWithOAuth
                     "github" "http://localhost:3000/api/callback")] /\
  run Flaky.backend SupabaseAuthProvider.signOut Flaky.down
  = mkRun (Thrown (new_Error "fetch failed")) Flaky.down
          [called auth_signOut] /\
  run Flaky.backend Page.Index Flaky.down
  = mkRun (Thrown (new_Error "fetch failed")) Flaky.down
          [called auth_getSession].
Proof.
  apply (rejections_are_not_caught
           Flaky.backend Flaky.down Flaky.down (new_Error "fetch failed")
           (Some Demo.ada_session) "ada@example.com" "s3cret").
  intros R c. reflexivity.
Defined.

(* ------------------------------------------------------------------ *)
(** ** The auth context outside and inside the provider *)

(** X9. The operations [useAuth] hands out outside any
    [SupabaseAuthProvider] do nothing: sign-in with email resolves to null,
    the value that reports success, without the backend being called, and
    sign-out neither calls the backend nor navigates.  Inside a provider the
    operations are the provider's own, and sign-in with email calls the
    backend once. *)
Theorem useAuth_outside_provider_is_silent
        {St : Type} (backend : Backend St) (st : St)
        (email password : string) :
  (exists context : ContextI.t,
      SupabaseAuthProvider.useAuth [] = Returned context /\
      run backend (ContextI.signInWithEmail context email password) st
      = mkRun (Returned None) st [] /\
      run backend (ContextI.signInWithGithub context) st
      = mkRun (Returned tt) st [] /\
      run backend (ContextI.signOut context) st
      = mkRun (Returned tt) st []) /\
  (forall (swr : SWRResponse.t) (outer : list ContextI.t),
      exists context : ContextI.t,
        SupabaseAuthProvider.useAuth
          (SupabaseAuthProvider.exposed swr :: outer)
        = Returned context /\
        ContextI.user context = SWRResponse.data swr /\
        ContextI.isLoading context = SWRResponse.isLoading swr /\
        count is_call
              (trace (run backend
                          (ContextI.signInWithEmail context email password)
                          st))
        = 1).
Proof.
  split.
  - exists SupabaseAuthProvider.defaultContext. repeat split.
  - intros swr outer. exists (SupabaseAuthProvider.exposed swr).
    repeat split. simpl ContextI.signInWithEmail.
    unfold SupabaseAuthProvider.signInWithEmail. simpl.
    destruct (backend _ (auth_signInWithPassword email password) st)
      as [[r|x] st']; simpl; [|reflexivity].
    destruct (AuthTokenResponse.error r); reflexivity.
Qed.
